(** * Pipeline name generator (plugins/krci-devops/scripts/generate-pipeline.py)

    A shallow embedding of the script.  A Python [str] is modelled as a list
    of code points below 256, i.e. [list ascii] (Rocq's [ascii] is 8-bit);
    literals are written as Rocq strings and coerced.  The two non-Latin-1
    glyphs of the verdict messages are kept as their UTF-8 bytes: they are
    output only and never inspected. *)

From Stdlib Require Import Bool Arith Lia List Ascii String ZArith.
Import ListNotations.

Open Scope string_scope.
Open Scope list_scope.
Open Scope bool_scope.

Definition str := list ascii.

Coercion list_ascii_of_string : string >-> list.

Definition str_eqb (a b : str) : bool :=
  if list_eq_dec ascii_dec a b then true else false.

Definition nl : ascii := "010"%char.

(** ** A fragment of Python's [re] module

    The patterns of the script use: [^], [$] (no MULTILINE flag: end of the
    subject or just before a newline that ends it), literal text, a
    character class followed by [+], concatenation and alternation.
    [rests w r s] lists every suffix left after [r] matches a prefix of [s],
    [s] being a suffix of the subject [w] (needed by [^]).  Python's
    backtracking matcher succeeds iff one such suffix exists. *)

Module PyRe.

Inductive regex : Type :=
| RBol                                  (* ^ *)
| REol                                  (* $ *)
| REnd                                  (* \Z *)
| RLit (l : str)                        (* literal text *)
| RClassPlus (p : ascii -> bool)        (* [...]+ *)
| RSeq (r1 r2 : regex)
| RAlt (r1 r2 : regex).

Infix "·" := RSeq (at level 61, right associativity).

Fixpoint strip_prefix (l s : str) : option str :=
  match l, s with
  | [], _ => Some s
  | c :: l', d :: s' => if ascii_dec c d then strip_prefix l' s' else None
  | _ :: _, [] => None
  end.

Fixpoint plus_rests (p : ascii -> bool) (s : str) : list str :=
  match s with
  | [] => []
  | c :: s' => if p c then s' :: plus_rests p s' else []
  end.

Fixpoint rests (w : str) (r : regex) (s : str) : list str :=
  match r with
  | RBol => if Nat.eqb (List.length s) (List.length w) then [s] else []
  | REol => match s with
            | [] => [s]
            | [c] => if ascii_dec c nl then [s] else []
            | _ => []
            end
  | REnd => match s with [] => [s] | _ => [] end
  | RLit l => match strip_prefix l s with Some t => [t] | None => [] end
  | RClassPlus p => plus_rests p s
  | RSeq r1 r2 => flat_map (rests w r2) (rests w r1 s)
  | RAlt r1 r2 => rests w r1 s ++ rests w r2 s
  end.

(** [re.match(r, s)] (or [compiled.match(s)]) is truthy. *)
Definition re_match (r : regex) (s : str) : bool :=
  match rests s r s with [] => false | _ :: _ => true end.

End PyRe.

Import PyRe.

(** Character classes [a-z0-9] and [a-z0-9-] (ASCII ranges). *)
Definition in_range (lo hi : nat) (c : ascii) : bool :=
  Nat.leb lo (nat_of_ascii c) && Nat.leb (nat_of_ascii c) hi.

Definition cls_az09 (c : ascii) : bool :=
  in_range 97 122 c || in_range 48 57 c.

Definition cls_az09h (c : ascii) : bool :=
  cls_az09 c || Nat.eqb (nat_of_ascii c) 45.

(** BUILD_REGEX = ^[a-z0-9]+-[a-z0-9]+-[a-z0-9]+-app-build-(default|edp)$ *)
Definition BUILD_REGEX : regex :=
  RBol · RClassPlus cls_az09 · RLit "-" · RClassPlus cls_az09 · RLit "-" ·
  RClassPlus cls_az09 · RLit "-app-build-" ·
  RAlt (RLit "default") (RLit "edp") · REol.

(** REVIEW_REGEX = ^[a-z0-9]+-[a-z0-9]+-[a-z0-9]+-app-review$ *)
Definition REVIEW_REGEX : regex :=
  RBol · RClassPlus cls_az09 · RLit "-" · RClassPlus cls_az09 · RLit "-" ·
  RClassPlus cls_az09 · RLit "-app-review" · REol.

(** validate_pipeline_name: the kind is Python's [Optional[str]]. *)
Definition validate_pipeline_name (name : str) : bool * option str :=
  if re_match BUILD_REGEX name then (true, Some (list_ascii_of_string "build"))
  else if re_match REVIEW_REGEX name then (true, Some (list_ascii_of_string "review"))
  else (false, None).

Example vpn1 : validate_pipeline_name "github-java-springboot-app-build-default"
  = (true, Some (list_ascii_of_string "build")).
Proof. vm_compute. reflexivity. Qed.
Example vpn2 : validate_pipeline_name ("a-b-c-app-review" ++ [nl])
  = (true, Some (list_ascii_of_string "review")).
Proof. vm_compute. reflexivity. Qed.
Example vpn3 : validate_pipeline_name ("a-b-c-app-review" ++ [nl; nl]) = (false, None).
Proof. vm_compute. reflexivity. Qed.

(** ** Output and [sys.exit]

    The script's effects are lines printed to stdout or stderr and
    [sys.exit(code)], which ends the run.  A computation takes the lines
    printed so far and either returns or exits. *)

Inductive stream : Type := Stdout | Stderr.

Definition line : Type := (stream * str)%type.

Inductive outcome (A : Type) : Type :=
| Ret (a : A) (out : list line)
| Exit (code : Z) (out : list line).
Arguments Ret {A} a out.
Arguments Exit {A} code out.

Definition M (A : Type) : Type := list line -> outcome A.

Definition ret {A} (a : A) : M A := fun o => Ret a o.

Definition bind {A B} (m : M A) (k : A -> M B) : M B :=
  fun o => match m o with
           | Ret a o' => k a o'
           | Exit c o' => Exit c o'
           end.

Declare Scope monad_scope.
Notation "x <- m ;; k" := (bind m (fun x => k))
  (at level 100, m at next level, right associativity) : monad_scope.
Notation "m ;;; k" := (bind m (fun _ => k))
  (at level 100, right associativity) : monad_scope.
Open Scope monad_scope.

(** [print(text)] / [print(text, file=sys.stderr)]; one entry per call. *)
Definition print (f : stream) (text : str) : M unit :=
  fun o => Ret tt (o ++ [(f, text)]).

Definition sys_exit {A} (code : Z) : M A := fun o => Exit code o.

(** ** validate_component and validate_vcs *)

Definition COMPONENT_REGEX : regex := RBol · RClassPlus cls_az09h · REol.

Definition validate_component (component component_name : str) : M bool :=
  match component with
  | [] =>
      print Stderr ("Error: " ++ component_name ++ " cannot be empty");;;
      ret false
  | _ =>
      if negb (re_match COMPONENT_REGEX component) then
        print Stderr ("Error: " ++ component_name
                      ++ " must contain only lowercase letters, "
                      ++ "numbers, and hyphens. Got: " ++ component);;;
        ret false
      else ret true
  end.

Definition SUPPORTED_VCS : list str :=
  map list_ascii_of_string ["github"; "gitlab"; "bitbucket"].

(** [', '.join(xs)] *)
Fixpoint join (sep : str) (xs : list str) : str :=
  match xs with
  | [] => []
  | [x] => x
  | x :: xs' => x ++ sep ++ join sep xs'
  end.

Definition vcs_warning (vcs : str) : str :=
  "Warning: VCS '" ++ vcs ++ "' is not in the list of commonly supported "
  ++ "providers: " ++ join ", " SUPPORTED_VCS ++ ". Proceeding anyway.".

Definition validate_vcs (vcs : str) : M bool :=
  (if negb (existsb (str_eqb vcs) SUPPORTED_VCS)
   then print Stderr (vcs_warning vcs) else ret tt);;;
  validate_component vcs "VCS".

(** ** generate_pipeline_names *)

(** [str.lower] on code points below 256: A-Z and the Latin-1 capitals
    U+00C0..U+00DE except U+00D7 map to the code point 32 above. *)
Definition is_upper_char (c : ascii) : bool :=
  in_range 65 90 c || (in_range 192 222 c && negb (Nat.eqb (nat_of_ascii c) 215)).

Definition lower_char (c : ascii) : ascii :=
  if is_upper_char c then ascii_of_nat (nat_of_ascii c + 32) else c.

Definition lower (s : str) : str := map lower_char s.

(** The templates and [str.format] with the three named fields. *)
Inductive field : Type := FVcs | FLanguage | FFramework.

Inductive piece : Type := PLit (l : str) | PField (f : field).

Definition BUILD_PATTERN : list piece :=
  [PField FVcs; PLit "-"; PField FLanguage; PLit "-"; PField FFramework;
   PLit "-app-build-default"].

Definition REVIEW_PATTERN : list piece :=
  [PField FVcs; PLit "-"; PField FLanguage; PLit "-"; PField FFramework;
   PLit "-app-review"].

Fixpoint format (t : list piece) (vcs language framework : str) : str :=
  match t with
  | [] => []
  | PLit l :: t' => l ++ format t' vcs language framework
  | PField f :: t' =>
      match f with
      | FVcs => vcs
      | FLanguage => language
      | FFramework => framework
      end ++ format t' vcs language framework
  end.

Definition generate_pipeline_names (vcs language framework : str) : str * str :=
  let build_name := format BUILD_PATTERN (lower vcs) (lower language) (lower framework) in
  let review_name := format REVIEW_PATTERN (lower vcs) (lower language) (lower framework) in
  (build_name, review_name).

(** ** main *)

Definition module_doc : str :=
"
Pipeline Name Generator for EDP-Tekton

This script generates valid pipeline names following KRCI naming conventions.
It validates inputs and produces both build and review pipeline names.

Usage:
    python generate-pipeline.py <vcs> <language> <framework>
    python generate-pipeline.py --validate <pipeline-name>

Examples:
    python generate-pipeline.py github java springboot
    python generate-pipeline.py gitlab python fastapi
    python generate-pipeline.py --validate github-java-springboot-app-build-default
".

Definition usage_validate : str := "Usage: generate-pipeline.py --validate <pipeline-name>".
Definition usage_generate : str := "Usage: generate-pipeline.py <vcs> <language> <framework>".

(** f-string rendering of [Optional[str]] *)
Definition show_opt (x : option str) : str :=
  match x with Some t => t | None => "None" end.

(** [sys.argv[i]]; every use is guarded by a length test. *)
Definition argv_at (argv : list str) (i : nat) : str := nth i argv [].

Definition main (argv : list str) : M unit :=
  if Nat.ltb (List.length argv) 2 then
    print Stdout module_doc;;; sys_exit 1
  else if str_eqb (argv_at argv 1) "--validate" then
    if negb (Nat.eqb (List.length argv) 3) then
      print Stdout usage_validate;;; sys_exit 1
    else
      let pipeline_name := argv_at argv 2 in
      let '(is_valid, pipeline_type) := validate_pipeline_name pipeline_name in
      if is_valid then
        print Stdout ("✓ Valid " ++ show_opt pipeline_type ++ " pipeline name: "
                      ++ pipeline_name);;;
        sys_exit 0
      else
        print Stderr ("✗ Invalid pipeline name: " ++ pipeline_name);;;
        print Stderr (String (ascii_of_nat 10) "Expected formats:");;;
        print Stderr "  Build:  <vcs>-<language>-<framework>-app-build-default";;;
        print Stderr "  Review: <vcs>-<language>-<framework>-app-review";;;
        sys_exit 1
  else if negb (Nat.eqb (List.length argv) 4) then
    print Stdout usage_generate;;; sys_exit 1
  else
    let vcs := argv_at argv 1 in
    let language := argv_at argv 2 in
    let framework := argv_at argv 3 in
    ok <- validate_vcs vcs;;
    (if negb ok then sys_exit 1 else ret tt);;;
    ok <- validate_component language "language";;
    (if negb ok then sys_exit 1 else ret tt);;;
    ok <- validate_component framework "framework";;
    (if negb ok then sys_exit 1 else ret tt);;;
    let '(build_name, review_name) := generate_pipeline_names vcs language framework in
    print Stdout "Generated pipeline names:";;;
    print Stdout ("  Build:  " ++ build_name);;;
    print Stdout ("  Review: " ++ review_name);;;
    print Stdout [];;;
    print Stdout "Onboarding commands:";;;
    print Stdout ("  ./charts/pipelines-library/scripts/onboarding-component.sh "
                  ++ "--type build-pipeline -n " ++ build_name ++ " --vcs " ++ vcs);;;
    print Stdout ("  ./charts/pipelines-library/scripts/onboarding-component.sh "
                  ++ "--type review-pipeline -n " ++ review_name ++ " --vcs " ++ vcs).

(** Running the script: a normal return ends the process with status 0. *)
Definition run_main (argv : list str) : outcome unit := main argv [].

Definition exit_code {A} (o : outcome A) : Z :=
  match o with Ret _ _ => 0%Z | Exit c _ => c end.

Definition output {A} (o : outcome A) : list line :=
  match o with Ret _ out => out | Exit _ out => out end.

Example main_e2e :
  exit_code (run_main (map list_ascii_of_string
    ["generate-pipeline.py"; "gitlab"; "python"; "fastapi"])) = 0%Z.
Proof. vm_compute. reflexivity. Qed.

(** ** Facts about the matcher *)

Module ReFacts.

Lemma strip_prefix_spec : forall l s t, strip_prefix l s = Some t <-> s = l ++ t.
Proof.
  induction l as [|c l IH]; intros [|d s] t; simpl.
  - split; intros H; [injection H|]; congruence.
  - split; intros H; [injection H|]; congruence.
  - split; discriminate.
  - destruct (ascii_dec c d) as [->|Hne].
    + rewrite IH. split; [intros ->|intros H; injection H]; auto.
    + split; [discriminate|intros H; injection H; congruence].
Qed.

Lemma in_rests_lit : forall w l s t, In t (rests w (RLit l) s) <-> s = l ++ t.
Proof.
  intros w l s t; simpl. rewrite <- strip_prefix_spec.
  destruct (strip_prefix l s) as [u|]; simpl.
  - split; [intros [->|[]]|intros H; injection H]; auto.
  - split; [intros []|discriminate].
Qed.

Lemma in_plus_rests : forall p s t,
  In t (plus_rests p s) <-> exists q, s = q ++ t /\ q <> [] /\ forallb p q = true.
Proof.
  intros p s t. induction s as [|c s IH]; simpl.
  - split; [intros []|intros (q & Hq & Hne & _)].
    destruct q; [congruence|discriminate].
  - case_eq (p c); intros Hc; simpl.
    + rewrite IH. split.
      * intros [->|(q & -> & Hne & Hq)].
        -- exists [c]. simpl. rewrite Hc. auto using nil_cons.
        -- exists (c :: q). simpl. rewrite Hc, Hq. auto using nil_cons.
      * intros ([|d q] & Hs & Hne & Hq); [congruence|].
        simpl in Hs, Hq. injection Hs as <- Hs. apply andb_prop in Hq as [_ Hq].
        destruct q as [|e q]; [left; auto|right].
        exists (e :: q). split; [auto|split; [discriminate|auto]].
    + split; [intros []|intros ([|d q] & Hs & Hne & Hq)]; [congruence|].
      simpl in Hs, Hq. injection Hs as <- _. rewrite Hc in Hq. discriminate.
Qed.

Lemma in_rests_plus : forall w p s t,
  In t (rests w (RClassPlus p) s) <->
  exists q, s = q ++ t /\ q <> [] /\ forallb p q = true.
Proof. intros. apply in_plus_rests. Qed.

Lemma in_rests_eol : forall w s t,
  In t (rests w REol s) <-> t = s /\ (s = [] \/ s = [nl]).
Proof.
  intros w s t; simpl. destruct s as [|c [|d s]].
  - simpl. intuition congruence.
  - destruct (ascii_dec c nl) as [->|Hne]; simpl.
    + intuition congruence.
    + split; [intros []|intros [_ [H|H]]; congruence].
  - split; [intros []|intros [_ [H|H]]; discriminate].
Qed.

Lemma in_rests_end : forall w s t, In t (rests w REnd s) <-> t = s /\ s = [].
Proof.
  intros w [|c s] t; simpl; [intuition congruence|].
  split; [intros []|intros [_ H]; discriminate].
Qed.

Lemma in_rests_bol : forall w s t,
  In t (rests w RBol s) <-> t = s /\ List.length s = List.length w.
Proof.
  intros w s t; simpl. case_eq (Nat.eqb (List.length s) (List.length w)); intros H.
  - apply Nat.eqb_eq in H. simpl. intuition congruence.
  - apply Nat.eqb_neq in H. simpl. intuition.
Qed.

Lemma in_rests_seq : forall w r1 r2 s t,
  In t (rests w (r1 · r2) s) <-> exists m, In m (rests w r1 s) /\ In t (rests w r2 m).
Proof. intros. simpl. apply in_flat_map. Qed.

Lemma in_rests_alt : forall w r1 r2 s t,
  In t (rests w (RAlt r1 r2) s) <-> In t (rests w r1 s) \/ In t (rests w r2 s).
Proof. intros. simpl. apply in_app_iff. Qed.

Lemma re_match_iff : forall r s, re_match r s = true <-> exists t, In t (rests s r s).
Proof.
  intros r s. unfold re_match. destruct (rests s r s) as [|t ts].
  - split; [discriminate|intros (t & [])].
  - split; [intros _; exists t; left; auto|auto].
Qed.

(** Introduction forms, used to build a match. *)
Lemma seq_intro : forall w r1 r2 s m t,
  In m (rests w r1 s) -> In t (rests w r2 m) -> In t (rests w (r1 · r2) s).
Proof. intros. apply in_rests_seq. eauto. Qed.

Lemma lit_intro : forall w l t, In t (rests w (RLit l) (l ++ t)).
Proof. intros. apply in_rests_lit. auto. Qed.

Lemma plus_intro : forall w p q t,
  q <> [] -> forallb p q = true -> In t (rests w (RClassPlus p) (q ++ t)).
Proof. intros. apply in_rests_plus. eauto. Qed.

Lemma eol_intro : forall w s, s = [] \/ s = [nl] -> In s (rests w REol s).
Proof. intros. apply in_rests_eol. auto. Qed.

Lemma end_intro : forall w, In [] (rests w REnd []).
Proof. intros. apply in_rests_end. auto. Qed.

Lemma bol_intro : forall w, In w (rests w RBol w).
Proof. intros. apply in_rests_bol. auto. Qed.

Lemma alt_introl : forall w r1 r2 s t,
  In t (rests w r1 s) -> In t (rests w (RAlt r1 r2) s).
Proof. intros. apply in_rests_alt. auto. Qed.

Lemma alt_intror : forall w r1 r2 s t,
  In t (rests w r2 s) -> In t (rests w (RAlt r1 r2) s).
Proof. intros. apply in_rests_alt. auto. Qed.

End ReFacts.

Import ReFacts.

(** Decomposing a hypothesis [In t (rests w r s)] along [r]. *)
Ltac rests_inv :=
  repeat match goal with
  | H : In _ (rests _ (RSeq _ _) _) |- _ =>
      apply in_rests_seq in H; destruct H as (? & ? & ?)
  | H : In _ (rests _ (RAlt _ _) _) |- _ => apply in_rests_alt in H; destruct H
  | H : In _ (rests _ (RLit _) _) |- _ => apply in_rests_lit in H
  | H : In _ (rests _ (RClassPlus _) _) |- _ =>
      apply in_rests_plus in H; destruct H as (? & ? & ? & ?)
  | H : In _ (rests _ REol _) |- _ => apply in_rests_eol in H; destruct H as [? ?]
  | H : In _ (rests _ REnd _) |- _ => apply in_rests_end in H; destruct H as [? ?]
  | H : In _ (rests _ RBol _) |- _ => apply in_rests_bol in H; destruct H as [? ?]
  end.

Ltac rests_build :=
  repeat (eapply seq_intro;
          [first [ apply bol_intro
                 | apply lit_intro
                 | apply plus_intro; assumption
                 | apply alt_introl; apply lit_intro
                 | apply alt_intror; apply lit_intro ]|]);
  first [apply eol_intro; assumption | apply end_intro].

(** A segment [[a-z0-9]+]. *)
Definition seg (q : str) : Prop := q <> [] /\ forallb cls_az09 q = true.

Lemma build_match_iff : forall s,
  re_match BUILD_REGEX s = true <->
  exists a b c d e,
    s = a ++ "-" ++ b ++ "-" ++ c ++ "-app-build-" ++ d ++ e /\
    seg a /\ seg b /\ seg c /\
    (d = "default" \/ d = "edp") /\ (e = [] \/ e = [nl]).
Proof.
  intros s. rewrite re_match_iff. split.
  - intros [t H]. unfold BUILD_REGEX in H. rests_inv; subst;
      do 5 eexists; (split; [reflexivity|]); unfold seg; intuition.
  - intros (a & b & c & d & e & -> & [Ha Ha'] & [Hb Hb'] & [Hc Hc'] & Hd & He).
    exists e. unfold BUILD_REGEX.
    destruct Hd as [-> | ->]; rests_build.
Qed.

Lemma review_match_iff : forall s,
  re_match REVIEW_REGEX s = true <->
  exists a b c e,
    s = a ++ "-" ++ b ++ "-" ++ c ++ "-app-review" ++ e /\
    seg a /\ seg b /\ seg c /\ (e = [] \/ e = [nl]).
Proof.
  intros s. rewrite re_match_iff. split.
  - intros [t H]. unfold REVIEW_REGEX in H. rests_inv; subst.
    do 4 eexists. split; [reflexivity|]. unfold seg; intuition.
  - intros (a & b & c & e & -> & [Ha Ha'] & [Hb Hb'] & [Hc Hc'] & He).
    exists e. unfold REVIEW_REGEX. rests_build.
Qed.

Lemma component_match_iff : forall s,
  re_match COMPONENT_REGEX s = true <->
  exists q e, s = q ++ e /\ q <> [] /\ forallb cls_az09h q = true /\ (e = [] \/ e = [nl]).
Proof.
  intros s. rewrite re_match_iff. split.
  - intros [t H]. unfold COMPONENT_REGEX in H. rests_inv; subst.
    do 2 eexists. split; [reflexivity|]. intuition.
  - intros (q & e & -> & Hq & Hq' & He). exists e. unfold COMPONENT_REGEX. rests_build.
Qed.

(** ** Character-level facts (checked on all 256 code points) *)

Ltac all_chars := intros [[] [] [] [] [] [] [] []]; reflexivity.

Lemma lower_char_not_upper : forall c, is_upper_char (lower_char c) = false.
Proof. all_chars. Qed.

Lemma lower_char_idem : forall c, lower_char (lower_char c) = lower_char c.
Proof. all_chars. Qed.

Lemma lower_char_az09 : forall c, implb (cls_az09 c) (Ascii.eqb (lower_char c) c) = true.
Proof. all_chars. Qed.

Lemma lower_char_hyphen : forall c,
  Ascii.eqb (lower_char c) "-"%char = Ascii.eqb c "-"%char.
Proof. all_chars. Qed.

Lemma az09_not_hyphen : forall c, implb (cls_az09 c) (negb (Ascii.eqb c "-"%char)) = true.
Proof. all_chars. Qed.

Lemma lower_idem : forall s, lower (lower s) = lower s.
Proof.
  intros s. unfold lower. rewrite map_map.
  apply map_ext. apply lower_char_idem.
Qed.

Lemma lower_seg : forall s, forallb cls_az09 s = true -> lower s = s.
Proof.
  induction s as [|c s IH]; simpl; intros H; auto.
  apply andb_prop in H as [Hc Hs].
  pose proof (lower_char_az09 c) as E. rewrite Hc in E. simpl in E.
  apply Ascii.eqb_eq in E. rewrite E. f_equal. auto.
Qed.

Lemma lower_no_upper : forall s, forallb (fun c => negb (is_upper_char c)) (lower s) = true.
Proof.
  induction s as [|c s IH]; simpl; auto. rewrite lower_char_not_upper, IH. reflexivity.
Qed.

(** Number of hyphens. *)
Definition nhy (s : str) : nat := List.length (filter (fun c => Ascii.eqb c "-"%char) s).

Lemma nhy_app : forall a b, nhy (a ++ b) = nhy a + nhy b.
Proof. intros. unfold nhy. rewrite filter_app, length_app. reflexivity. Qed.

Lemma nhy_lower : forall s, nhy (lower s) = nhy s.
Proof.
  induction s as [|c s IH]; auto. unfold nhy in *. simpl.
  rewrite lower_char_hyphen. destruct (Ascii.eqb c "-"%char); simpl; auto.
Qed.

Lemma nhy_az09 : forall s, forallb cls_az09 s = true -> nhy s = 0.
Proof.
  induction s as [|c s IH]; simpl; intros H; auto.
  apply andb_prop in H as [Hc Hs]. unfold nhy in *. simpl.
  pose proof (az09_not_hyphen c) as E. rewrite Hc in E. simpl in E.
  apply negb_true_iff in E. rewrite E. auto.
Qed.

Lemma nhy_pos : forall s, In "-"%char s -> 0 < nhy s.
Proof.
  intros s H. unfold nhy. destruct (filter (fun c => Ascii.eqb c "-"%char) s) eqn:E.
  - exfalso. assert (In "-"%char (filter (fun c => Ascii.eqb c "-"%char) s)) as Hin.
    { apply filter_In. split; auto. }
    rewrite E in Hin. destruct Hin.
  - simpl. lia.
Qed.

Lemma nhy_build : forall s, re_match BUILD_REGEX s = true -> nhy s = 5.
Proof.
  intros s H. apply build_match_iff in H as (a & b & c & d & e & -> & [_ Ha] & [_ Hb] & [_ Hc] & Hd & He).
  rewrite !nhy_app, (nhy_az09 a), (nhy_az09 b), (nhy_az09 c) by assumption.
  destruct Hd as [-> | ->]; destruct He as [-> | ->]; reflexivity.
Qed.

Lemma nhy_review : forall s, re_match REVIEW_REGEX s = true -> nhy s = 4.
Proof.
  intros s H. apply review_match_iff in H as (a & b & c & e & -> & [_ Ha] & [_ Hb] & [_ Hc] & He).
  rewrite !nhy_app, (nhy_az09 a), (nhy_az09 b), (nhy_az09 c) by assumption.
  destruct He as [-> | ->]; reflexivity.
Qed.

(** Two strings whose concrete tails end differently are different. *)
Ltac tail_clash H :=
  apply (f_equal (@rev ascii)) in H; rewrite ?rev_app_distr in H;
  simpl in H; discriminate H.

(** A build name ends in [default] or [edp], a review name in [review]
    (each possibly followed by one newline): no string is both. *)
Lemma build_review_exclusive : forall s,
  re_match BUILD_REGEX s = true -> re_match REVIEW_REGEX s = true -> False.
Proof.
  intros s Hb Hr.
  apply build_match_iff in Hb as (a & b & c & d & e & -> & _ & _ & _ & Hd & He).
  apply review_match_iff in Hr as (a' & b' & c' & e' & H & _ & _ & _ & He').
  destruct Hd as [-> | ->]; destruct He as [-> | ->]; destruct He' as [-> | ->];
    tail_clash H.
Qed.

(** ** Readings of the claims, for comparison with the code *)

(** The patterns read as anchored at the very end of the string ([\Z]). *)
Definition BUILD_REGEX_full : regex :=
  RBol · RClassPlus cls_az09 · RLit "-" · RClassPlus cls_az09 · RLit "-" ·
  RClassPlus cls_az09 · RLit "-app-build-" ·
  RAlt (RLit "default") (RLit "edp") · REnd.

Definition REVIEW_REGEX_full : regex :=
  RBol · RClassPlus cls_az09 · RLit "-" · RClassPlus cls_az09 · RLit "-" ·
  RClassPlus cls_az09 · RLit "-app-review" · REnd.

Definition validate_pipeline_name_full (name : str) : bool * option str :=
  if re_match BUILD_REGEX_full name then (true, Some (list_ascii_of_string "build"))
  else if re_match REVIEW_REGEX_full name then (true, Some (list_ascii_of_string "review"))
  else (false, None).

(** A component token: non-empty, every character in [a-z0-9-]. *)
Definition component_ok_spec (c : str) : bool :=
  match c with [] => false | _ => forallb cls_az09h c end.

(** validate_pipeline_name with the two patterns tried in the other order. *)
Definition validate_pipeline_name_swapped (name : str) : bool * option str :=
  if re_match REVIEW_REGEX name then (true, Some (list_ascii_of_string "review"))
  else if re_match BUILD_REGEX name then (true, Some (list_ascii_of_string "build"))
  else (false, None).

Definition ends_nl (s : str) : bool :=
  match rev s with c :: _ => Ascii.eqb c nl | [] => false end.

Lemma ends_nl_snoc : forall p, ends_nl (p ++ [nl]) = true.
Proof. intros p. unfold ends_nl. rewrite rev_app_distr. reflexivity. Qed.

Lemma build_full_match_iff : forall s,
  re_match BUILD_REGEX_full s = true <->
  exists a b c d,
    s = a ++ "-" ++ b ++ "-" ++ c ++ "-app-build-" ++ d ++ [] /\
    seg a /\ seg b /\ seg c /\ (d = "default" \/ d = "edp").
Proof.
  intros s. rewrite re_match_iff. split.
  - intros [t H]. unfold BUILD_REGEX_full in H. rests_inv; subst;
      do 4 eexists; (split; [reflexivity|]); unfold seg; intuition.
  - intros (a & b & c & d & -> & [Ha Ha'] & [Hb Hb'] & [Hc Hc'] & Hd).
    exists []. unfold BUILD_REGEX_full.
    destruct Hd as [-> | ->]; rests_build.
Qed.

Lemma review_full_match_iff : forall s,
  re_match REVIEW_REGEX_full s = true <->
  exists a b c,
    s = a ++ "-" ++ b ++ "-" ++ c ++ "-app-review" ++ [] /\ seg a /\ seg b /\ seg c.
Proof.
  intros s. rewrite re_match_iff. split.
  - intros [t H]. unfold REVIEW_REGEX_full in H. rests_inv; subst.
    do 3 eexists. split; [reflexivity|]. unfold seg; intuition.
  - intros (a & b & c & -> & [Ha Ha'] & [Hb Hb'] & [Hc Hc']).
    exists []. unfold REVIEW_REGEX_full. rests_build.
Qed.

(** On a name that does not end in a newline the code's [$] and [\Z] agree. *)
Lemma validate_pipeline_name_no_newline : forall name,
  ends_nl name = false -> validate_pipeline_name name = validate_pipeline_name_full name.
Proof.
  intros name Hn.
  assert (Eb : re_match BUILD_REGEX name = re_match BUILD_REGEX_full name).
  { apply eq_true_iff_eq. rewrite build_match_iff, build_full_match_iff. split.
    - intros (a & b & c & d & e & -> & Ha & Hb & Hc & Hd & [-> | ->]).
      + exists a, b, c, d. intuition.
      + rewrite !app_assoc, ends_nl_snoc in Hn. discriminate.
    - intros (a & b & c & d & -> & Ha & Hb & Hc & Hd). exists a, b, c, d, []. intuition. }
  assert (Er : re_match REVIEW_REGEX name = re_match REVIEW_REGEX_full name).
  { apply eq_true_iff_eq. rewrite review_match_iff, review_full_match_iff. split.
    - intros (a & b & c & e & -> & Ha & Hb & Hc & [-> | ->]).
      + exists a, b, c. intuition.
      + rewrite !app_assoc, ends_nl_snoc in Hn. discriminate.
    - intros (a & b & c & -> & Ha & Hb & Hc). exists a, b, c, []. intuition. }
  unfold validate_pipeline_name, validate_pipeline_name_full. rewrite Eb, Er. reflexivity.
Qed.

Lemma generate_pipeline_names_eq : forall vcs language framework,
  generate_pipeline_names vcs language framework =
  (lower vcs ++ "-" ++ lower language ++ "-" ++ lower framework ++ "-app-build-default",
   lower vcs ++ "-" ++ lower language ++ "-" ++ lower framework ++ "-app-review").
Proof.
  intros. unfold generate_pipeline_names, BUILD_PATTERN, REVIEW_PATTERN.
  cbn [format]. rewrite !app_nil_r. reflexivity.
Qed.

Lemma az09h_split : forall c, implb (cls_az09h c) (cls_az09 c || Ascii.eqb c "-"%char) = true.
Proof. all_chars. Qed.

Lemma token_seg : forall x, component_ok_spec x = true -> ~ In "-"%char x -> seg x.
Proof.
  intros [|c0 x0] H Hh; [discriminate|]. split; [discriminate|].
  unfold component_ok_spec in H. revert H Hh. generalize (c0 :: x0) as x.
  induction x as [|c x IH]; simpl; intros H Hh; auto.
  apply andb_prop in H as [Hc Hx].
  pose proof (az09h_split c) as E. rewrite Hc in E. simpl in E.
  apply orb_prop in E as [E|E].
  - rewrite E. simpl. apply IH; auto.
  - apply Ascii.eqb_eq in E. subst. exfalso. apply Hh. left. reflexivity.
Qed.

(** ** validate_component, validate_vcs and main: general facts *)

(** The verdict of validate_component. *)
Definition vc_ok (c : str) : bool :=
  match c with [] => false | _ => re_match COMPONENT_REGEX c end.

Definition only_stderr (out : list line) : Prop := Forall (fun l => fst l = Stderr) out.

(** validate_component never exits, and what it prints does not depend on
    what was printed before. *)
Lemma validate_component_frame : forall c n o,
  validate_component c n o = Ret (vc_ok c) (o ++ output (validate_component c n [])).
Proof.
  intros [|x c] n o; unfold validate_component, vc_ok, bind, print, ret; [reflexivity|].
  destruct (re_match COMPONENT_REGEX (x :: c)); simpl; rewrite ?app_nil_r; reflexivity.
Qed.

(** It prints one stderr line exactly when it rejects. *)
Lemma validate_component_output : forall c n,
  only_stderr (output (validate_component c n [])) /\
  (vc_ok c = true <-> output (validate_component c n []) = []).
Proof.
  intros [|x c] n; unfold validate_component, vc_ok, bind, print, ret.
  - simpl. split; [repeat constructor|]. split; discriminate.
  - destruct (re_match COMPONENT_REGEX (x :: c)); simpl.
    + split; [constructor|]. tauto.
    + split; [repeat constructor|]. split; discriminate.
Qed.

(** Off strings ending in a newline, the verdict is the component-token test. *)
Lemma vc_ok_no_newline : forall c, ends_nl c = false -> vc_ok c = component_ok_spec c.
Proof.
  intros [|x c] Hn; [reflexivity|]. unfold vc_ok, component_ok_spec.
  apply eq_true_iff_eq. rewrite component_match_iff. split.
  - intros (q & e & Hs & Hq & Hq' & [-> | ->]).
    + rewrite app_nil_r in Hs. rewrite Hs. exact Hq'.
    + rewrite Hs, ends_nl_snoc in Hn. discriminate.
  - intros H. exists (x :: c), []. rewrite app_nil_r. intuition discriminate.
Qed.

Definition in_supported (vcs : str) : bool := existsb (str_eqb vcs) SUPPORTED_VCS.

Definition vcs_warnings (vcs : str) : list line :=
  if in_supported vcs then [] else [(Stderr, vcs_warning vcs)].

Lemma validate_vcs_frame : forall vcs o,
  validate_vcs vcs o =
  Ret (vc_ok vcs) (o ++ vcs_warnings vcs ++ output (validate_component vcs "VCS" [])).
Proof.
  intros vcs o. unfold validate_vcs, vcs_warnings, in_supported, bind, print, ret.
  destruct (existsb (str_eqb vcs) SUPPORTED_VCS); simpl;
    rewrite validate_component_frame, <- ?app_assoc; reflexivity.
Qed.

Lemma vcs_warnings_stderr : forall vcs, only_stderr (vcs_warnings vcs).
Proof. intros vcs. unfold vcs_warnings. destruct (in_supported vcs); repeat constructor. Qed.

Ltac main_steps :=
  first [rewrite validate_vcs_frame | rewrite validate_component_frame].

(** Generation mode: a rejected component stops the run with status 1, and
    nothing has been printed to stdout (in particular no name). *)
Lemma main_generation_rejects : forall prog vcs language framework,
  str_eqb vcs "--validate" = false ->
  vc_ok vcs = false \/ vc_ok language = false \/ vc_ok framework = false ->
  exit_code (run_main [prog; vcs; language; framework]) = 1%Z /\
  only_stderr (output (run_main [prog; vcs; language; framework])).
Proof.
  intros prog vcs language framework Hv Hbad.
  pose proof (vcs_warnings_stderr vcs) as W0.
  pose proof (proj1 (validate_component_output vcs "VCS")) as W1.
  pose proof (proj1 (validate_component_output language "language")) as W2.
  pose proof (proj1 (validate_component_output framework "framework")) as W3.
  unfold only_stderr in *.
  unfold run_main, main. cbn -[validate_vcs validate_component generate_pipeline_names str_eqb].
  cbn in Hv. rewrite Hv. unfold bind, sys_exit, ret, print. main_steps.
  destruct (vc_ok vcs) eqn:E1; cbn -[validate_component generate_pipeline_names];
    [|rewrite !Forall_app; auto].
  main_steps.
  destruct (vc_ok language) eqn:E2; cbn -[validate_component generate_pipeline_names];
    [|rewrite !Forall_app; auto].
  main_steps.
  destruct (vc_ok framework) eqn:E3; cbn -[validate_component generate_pipeline_names];
    [|rewrite !Forall_app; auto].
  exfalso. intuition congruence.
Qed.

(** Generation mode: accepted components give status 0 and both names on
    stdout. *)
Lemma main_generation_accepts : forall prog vcs language framework,
  str_eqb vcs "--validate" = false ->
  vc_ok vcs = true -> vc_ok language = true -> vc_ok framework = true ->
  exit_code (run_main [prog; vcs; language; framework]) = 0%Z /\
  In (Stdout, "  Build:  " ++ fst (generate_pipeline_names vcs language framework))
     (output (run_main [prog; vcs; language; framework])) /\
  In (Stdout, "  Review: " ++ snd (generate_pipeline_names vcs language framework))
     (output (run_main [prog; vcs; language; framework])).
Proof.
  intros prog vcs language framework Hv E1 E2 E3.
  unfold run_main, main. cbn -[validate_vcs validate_component generate_pipeline_names str_eqb].
  cbn in Hv. rewrite Hv. unfold bind, sys_exit, ret, print. main_steps. rewrite E1. cbn -[validate_component generate_pipeline_names].
  main_steps. rewrite E2. cbn -[validate_component generate_pipeline_names].
  main_steps. rewrite E3. cbn -[validate_component generate_pipeline_names].
  destruct (generate_pipeline_names vcs language framework) as [b r].
  cbn. split; [reflexivity|]. split; rewrite ?in_app_iff; simpl; tauto.
Qed.

(** [sys.argv] given as Rocq strings. *)
Definition argv_of (xs : list string) : list str := map list_ascii_of_string xs.

(** ** The claims *)

(** C1 (validate_pipeline_name): the claim reads the patterns as anchored to
    the full string.  The code's [$] also matches before one final newline,
    so a build name followed by a newline is reported as a build name,
    while the full-string reading rejects it. *)
Theorem validate_pipeline_name_trailing_newline :
  validate_pipeline_name ("github-java-springboot-app-build-default" ++ [nl])
    = (true, Some (list_ascii_of_string "build")) /\
  validate_pipeline_name_full ("github-java-springboot-app-build-default" ++ [nl])
    = (false, None).
Proof. split; vm_compute; reflexivity. Qed.

(** C2 (validate_component): the claim says a string with a character
    outside [a-z0-9-] is rejected.  The code accepts ["java\n"]: the
    newline is outside the class, but Python's [$] matches before it. *)
Theorem validate_component_trailing_newline :
  validate_component ("java" ++ [nl]) "language" [] = Ret true [] /\
  component_ok_spec ("java" ++ [nl]) = false.
Proof. split; vm_compute; reflexivity. Qed.

(** C3 (generate_pipeline_names): the two names are the templates filled
    with the lowercased tokens; the result is the same for any casing of
    the inputs and contains no uppercase letter. *)
Theorem generate_pipeline_names_spec : forall vcs language framework,
  generate_pipeline_names vcs language framework =
    (lower vcs ++ "-" ++ lower language ++ "-" ++ lower framework ++ "-app-build-default",
     lower vcs ++ "-" ++ lower language ++ "-" ++ lower framework ++ "-app-review") /\
  generate_pipeline_names (lower vcs) (lower language) (lower framework)
    = generate_pipeline_names vcs language framework /\
  forallb (fun c => negb (is_upper_char c))
    (fst (generate_pipeline_names vcs language framework)) = true /\
  forallb (fun c => negb (is_upper_char c))
    (snd (generate_pipeline_names vcs language framework)) = true.
Proof.
  intros vcs language framework. rewrite !generate_pipeline_names_eq, !lower_idem.
  split; [reflexivity|]. split; [reflexivity|]. cbn [fst snd].
  rewrite !forallb_app, !lower_no_upper. split; reflexivity.
Qed.

(** C4 (round trip): tokens that are valid components without hyphens give
    names that validate_pipeline_name accepts with the right kind; a
    language or framework token with a hyphen gives names it rejects. *)
Theorem generate_validate_round_trip : forall v l f,
  (component_ok_spec v = true -> component_ok_spec l = true ->
   component_ok_spec f = true ->
   ~ In "-"%char v -> ~ In "-"%char l -> ~ In "-"%char f ->
   validate_pipeline_name (fst (generate_pipeline_names v l f))
     = (true, Some (list_ascii_of_string "build")) /\
   validate_pipeline_name (snd (generate_pipeline_names v l f))
     = (true, Some (list_ascii_of_string "review"))) /\
  (In "-"%char l \/ In "-"%char f ->
   validate_pipeline_name (fst (generate_pipeline_names v l f)) = (false, None) /\
   validate_pipeline_name (snd (generate_pipeline_names v l f)) = (false, None)).
Proof.
  intros v l f. rewrite generate_pipeline_names_eq. cbn [fst snd]. split.
  - intros Hv Hl Hf Nv Nl Nf.
    destruct (token_seg v Hv Nv) as [Sv Sv'].
    destruct (token_seg l Hl Nl) as [Sl Sl'].
    destruct (token_seg f Hf Nf) as [Sf Sf'].
    rewrite (lower_seg v Sv'), (lower_seg l Sl'), (lower_seg f Sf').
    assert (Hb : re_match BUILD_REGEX (v ++ "-" ++ l ++ "-" ++ f ++ "-app-build-default") = true).
    { apply build_match_iff. exists v, l, f, (list_ascii_of_string "default"), [].
      split; [reflexivity|]. unfold seg; intuition. }
    assert (Hr : re_match REVIEW_REGEX (v ++ "-" ++ l ++ "-" ++ f ++ "-app-review") = true).
    { apply review_match_iff. exists v, l, f, [].
      split; [reflexivity|]. unfold seg; intuition. }
    assert (Hbr : re_match BUILD_REGEX (v ++ "-" ++ l ++ "-" ++ f ++ "-app-review") = false).
    { destruct (re_match BUILD_REGEX (v ++ "-" ++ l ++ "-" ++ f ++ "-app-review")) eqn:E;
        [|reflexivity].
      exfalso. exact (build_review_exclusive _ E Hr). }
    unfold validate_pipeline_name. rewrite Hb, Hbr, Hr. split; reflexivity.
  - intros Hh.
    assert (P : 0 < nhy l + nhy f) by (destruct Hh as [H|H]; apply nhy_pos in H; lia).
    assert (E1 : nhy "-" = 1) by reflexivity.
    assert (E2 : nhy "-app-build-default" = 3) by reflexivity.
    assert (E3 : nhy "-app-review" = 2) by reflexivity.
    assert (Nb : nhy (lower v ++ "-" ++ lower l ++ "-" ++ lower f ++ "-app-build-default")
                 = nhy v + nhy l + nhy f + 5).
    { rewrite !nhy_app, !nhy_lower, E1, E2. lia. }
    assert (Nr : nhy (lower v ++ "-" ++ lower l ++ "-" ++ lower f ++ "-app-review")
                 = nhy v + nhy l + nhy f + 4).
    { rewrite !nhy_app, !nhy_lower, E1, E3. lia. }
    unfold validate_pipeline_name.
    destruct (re_match BUILD_REGEX (lower v ++ "-" ++ lower l ++ "-" ++ lower f ++ "-app-build-default")) eqn:B1.
    { apply nhy_build in B1. lia. }
    destruct (re_match REVIEW_REGEX (lower v ++ "-" ++ lower l ++ "-" ++ lower f ++ "-app-build-default")) eqn:R1.
    { apply nhy_review in R1. lia. }
    destruct (re_match BUILD_REGEX (lower v ++ "-" ++ lower l ++ "-" ++ lower f ++ "-app-review")) eqn:B2.
    { apply build_match_iff in B2 as (a & b & c & d & e & H & _ & _ & _ & Hd & He).
      destruct Hd as [-> | ->]; destruct He as [-> | ->]; tail_clash H. }
    destruct (re_match REVIEW_REGEX (lower v ++ "-" ++ lower l ++ "-" ++ lower f ++ "-app-review")) eqn:R2.
    { apply nhy_review in R2. lia. }
    split; reflexivity.
Qed.

Lemma generate_validate_round_trip_witness :
  component_ok_spec "github" = true /\ ~ In "-"%char (list_ascii_of_string "github") /\
  validate_pipeline_name (fst (generate_pipeline_names "github" "java" "springboot"))
    = (true, Some (list_ascii_of_string "build")) /\
  validate_pipeline_name (snd (generate_pipeline_names "github" "java" "springboot"))
    = (true, Some (list_ascii_of_string "review")) /\
  In "-"%char (list_ascii_of_string "spring-boot") /\
  validate_pipeline_name (fst (generate_pipeline_names "github" "java" "spring-boot"))
    = (false, None).
Proof.
  split; [reflexivity|]. split; [simpl; intuition discriminate|].
  split; [|split; [|split; [simpl; tauto|]]].
  - apply (proj1 (generate_validate_round_trip "github" "java" "springboot"));
      (reflexivity || (simpl; intuition discriminate)).
  - apply (proj1 (generate_validate_round_trip "github" "java" "springboot"));
      (reflexivity || (simpl; intuition discriminate)).
  - apply (proj2 (generate_validate_round_trip "github" "java" "spring-boot")).
    right. simpl. tauto.
Defined.

(** C5 (validate_pipeline_name, boundary cases). *)
Theorem validate_pipeline_name_boundary :
  validate_pipeline_name "github-java-springboot-app-build-default"
    = (true, Some (list_ascii_of_string "build")) /\
  validate_pipeline_name "github-java-springboot-app-build-edp"
    = (true, Some (list_ascii_of_string "build")) /\
  validate_pipeline_name "github-java-springboot-app-review"
    = (true, Some (list_ascii_of_string "review")) /\
  validate_pipeline_name "github-java-springboot-app-build-custom" = (false, None).
Proof. repeat split; vm_compute; reflexivity. Qed.

(** C6 (validate_vcs): the verdict is validate_component's; an unknown
    provider (compared exactly, case included) only adds a warning line
    before validate_component's lines; ["gitea"] is accepted with a warning. *)
Theorem validate_vcs_structural_result : forall vcs,
  validate_component vcs "VCS" []
    = Ret (vc_ok vcs) (output (validate_component vcs "VCS" [])) /\
  validate_vcs vcs []
    = Ret (vc_ok vcs)
        ((if in_supported vcs then [] else [(Stderr, vcs_warning vcs)])
         ++ output (validate_component vcs "VCS" [])) /\
  in_supported "GitHub" = false /\
  validate_vcs "gitea" [] = Ret true [(Stderr, vcs_warning "gitea")].
Proof.
  intros vcs. split; [apply validate_component_frame|].
  split; [apply validate_vcs_frame|].
  split; vm_compute; reflexivity.
Qed.

(** C7 (main, generation mode): the claim says a component containing a
    disallowed character stops the run with status 1 before any name is
    printed.  With the language ["java\n"] the run prints both names and
    ends with status 0. *)
Definition argv_newline_language : list str :=
  argv_of ["generate-pipeline.py"; "github"] ++ ["java" ++ [nl]] ++ argv_of ["springboot"].

Theorem main_generation_newline_token :
  component_ok_spec ("java" ++ [nl]) = false /\
  exit_code (run_main argv_newline_language) = 0%Z /\
  In (Stdout, "  Build:  github-java" ++ [nl] ++ "-springboot-app-build-default")
     (output (run_main argv_newline_language)).
Proof.
  split; [vm_compute; reflexivity|]. split; [vm_compute; reflexivity|].
  vm_compute. tauto.
Qed.

(** C8 (main, validation mode and argument counts): with [--validate NAME]
    the status is 0 iff validate_pipeline_name accepts NAME, else 1; a wrong
    argument count prints a usage text and ends with status 1. *)
Theorem main_exit_codes : forall prog : str,
  (forall name, exit_code (run_main [prog; list_ascii_of_string "--validate"; name])
                = if fst (validate_pipeline_name name) then 0%Z else 1%Z) /\
  (forall args, List.length args <> 1 ->
     run_main (prog :: list_ascii_of_string "--validate" :: args)
       = Exit 1 [(Stdout, usage_validate)]) /\
  (forall a args, str_eqb a "--validate" = false -> List.length args <> 2 ->
     run_main (prog :: a :: args) = Exit 1 [(Stdout, usage_generate)]) /\
  run_main [prog] = Exit 1 [(Stdout, module_doc)].
Proof.
  intros prog. split; [|split; [|split]].
  - intros name. unfold run_main, main, argv_at.
    cbn -[validate_pipeline_name].
    destruct (validate_pipeline_name name) as [[|] k]; reflexivity.
  - intros args Hn.
    assert (E : Nat.eqb (List.length (prog :: list_ascii_of_string "--validate" :: args)) 3
                = false) by (simpl; apply Nat.eqb_neq; unfold str in *; lia).
    unfold run_main, main, argv_at. rewrite E. reflexivity.
  - intros a args Ha Hn.
    assert (E : Nat.eqb (List.length (prog :: a :: args)) 4 = false)
      by (simpl; apply Nat.eqb_neq; unfold str in *; lia).
    unfold run_main, main, argv_at. rewrite E. cbn in Ha. cbn -[usage_generate].
    rewrite Ha. reflexivity.
  - reflexivity.
Qed.

Lemma main_exit_codes_witness :
  List.length (@nil str) <> 1 /\
  run_main (argv_of ["generate-pipeline.py"; "--validate"]) = Exit 1 [(Stdout, usage_validate)] /\
  str_eqb "github" "--validate" = false /\ List.length (argv_of ["java"]) <> 2 /\
  run_main (argv_of ["generate-pipeline.py"; "github"; "java"])
    = Exit 1 [(Stdout, usage_generate)].
Proof.
  split; [discriminate|]. split.
  - apply (proj1 (proj2 (main_exit_codes "generate-pipeline.py")) []). discriminate.
  - split; [reflexivity|]. split; [discriminate|].
    apply (proj1 (proj2 (proj2 (main_exit_codes "generate-pipeline.py")))
             "github" (argv_of ["java"])); [reflexivity|discriminate].
Defined.

(** C9: no string matches both patterns, so trying them in the other order
    gives the same verdict. *)
Theorem build_review_patterns_exclusive : forall s,
  re_match BUILD_REGEX s && re_match REVIEW_REGEX s = false /\
  validate_pipeline_name s = validate_pipeline_name_swapped s.
Proof.
  intros s.
  destruct (re_match BUILD_REGEX s) eqn:Hb; destruct (re_match REVIEW_REGEX s) eqn:Hr;
    unfold validate_pipeline_name, validate_pipeline_name_swapped; rewrite ?Hb, ?Hr;
    try (split; reflexivity).
  exfalso. exact (build_review_exclusive s Hb Hr).
Qed.

(** C10 (validate_vcs): the membership test runs first, so an unknown
    provider that validate_component rejects gets the warning line followed
    by validate_component's error line(s), all on stderr, and the verdict
    false. *)
Theorem validate_vcs_warns_then_rejects : forall vcs,
  in_supported vcs = false -> vc_ok vcs = false ->
  validate_vcs vcs []
    = Ret false ((Stderr, vcs_warning vcs) :: output (validate_component vcs "VCS" [])) /\
  output (validate_component vcs "VCS" []) <> [] /\
  only_stderr (output (validate_component vcs "VCS" [])).
Proof.
  intros vcs Hs Hok. rewrite validate_vcs_frame. unfold vcs_warnings. rewrite Hs, Hok.
  destruct (validate_component_output vcs "VCS") as [Hst Hiff].
  split; [reflexivity|]. split; [|exact Hst].
  intros He. apply Hiff in He. congruence.
Qed.

Lemma validate_vcs_warns_then_rejects_witness :
  in_supported "GitHub" = false /\ vc_ok "GitHub" = false /\
  in_supported "" = false /\ vc_ok "" = false /\
  validate_vcs "GitHub" []
    = Ret false ((Stderr, vcs_warning "GitHub")
                 :: output (validate_component "GitHub" "VCS" [])) /\
  validate_vcs "" [] = Ret false ((Stderr, vcs_warning "")
                                  :: output (validate_component "" "VCS" [])).
Proof.
  do 4 (split; [vm_compute; reflexivity|]). split.
  - apply (validate_vcs_warns_then_rejects "GitHub"); vm_compute; reflexivity.
  - apply (validate_vcs_warns_then_rejects ""); vm_compute; reflexivity.
Defined.

(** ** Further properties of the script *)

Lemma vc_ok_shape : forall c,
  vc_ok c = true <->
  exists q e, c = q ++ e /\ q <> [] /\ forallb cls_az09h q = true /\ (e = [] \/ e = [nl]).
Proof.
  intros [|x c].
  - split; [discriminate|]. intros (q & e & H & Hq & _). destruct q; [congruence|discriminate].
  - unfold vc_ok. rewrite component_match_iff. reflexivity.
Qed.

Lemma validate_component_accept : forall c n o,
  vc_ok c = true -> validate_component c n o = Ret true o.
Proof.
  intros c n o H. rewrite validate_component_frame, H.
  rewrite (proj1 (proj2 (validate_component_output c n)) H), app_nil_r. reflexivity.
Qed.

Lemma validate_vcs_accept : forall vcs o,
  vc_ok vcs = true -> validate_vcs vcs o = Ret true (o ++ vcs_warnings vcs).
Proof.
  intros vcs o H. rewrite validate_vcs_frame, H.
  rewrite (proj1 (proj2 (validate_component_output vcs "VCS")) H), app_nil_r. reflexivity.
Qed.

Lemma lower_char_accepted : forall c,
  implb (cls_az09h c || Ascii.eqb c nl) (Ascii.eqb (lower_char c) c) = true.
Proof. all_chars. Qed.

Lemma lower_fixed : forall s,
  forallb (fun c => cls_az09h c || Ascii.eqb c nl) s = true -> lower s = s.
Proof.
  induction s as [|c s IH]; simpl; intros H; auto.
  apply andb_prop in H as [Hc Hs].
  pose proof (lower_char_accepted c) as E. rewrite Hc in E. simpl in E.
  apply Ascii.eqb_eq in E. rewrite E, IH; auto.
Qed.

Lemma forallb_weaken : forall (p q : ascii -> bool) s,
  (forall c, p c = true -> q c = true) -> forallb p s = true -> forallb q s = true.
Proof.
  intros p q s Hpq. induction s as [|c s IH]; simpl; auto.
  intros H. apply andb_prop in H as [Hc Hs]. rewrite (Hpq c Hc). simpl. auto.
Qed.

Lemma lower_accepted : forall x, vc_ok x = true -> lower x = x.
Proof.
  intros x H. apply vc_ok_shape in H as (q & e & -> & _ & Hq & He).
  apply lower_fixed. rewrite forallb_app.
  rewrite (forallb_weaken cls_az09h) by (auto || (intros c Hc; rewrite Hc; reflexivity)).
  destruct He as [-> | ->]; reflexivity.
Qed.

(** X1 (validate_component): it accepts exactly a non-empty run of
    [a-z0-9-] optionally followed by one newline; it never exits, prints
    nothing when it accepts and exactly one stderr line when it rejects. *)
Theorem validate_component_accepts_iff : forall c n,
  (validate_component c n [] = Ret true [] <->
   exists q e, c = q ++ e /\ q <> [] /\ forallb cls_az09h q = true /\ (e = [] \/ e = [nl])) /\
  (forall o, validate_component c n o = Ret true o \/
             exists msg, validate_component c n o = Ret false (o ++ [(Stderr, msg)])).
Proof.
  intros c n. split.
  - rewrite <- vc_ok_shape. rewrite validate_component_frame. split.
    + intros H. injection H as H _. exact H.
    + intros H. rewrite H, (proj1 (proj2 (validate_component_output c n)) H). reflexivity.
  - intros o. destruct c as [|x c]; unfold validate_component, bind, print, ret.
    + right. eauto.
    + destruct (re_match COMPONENT_REGEX (x :: c)); simpl; eauto.
Qed.

Lemma some_build_review : forall b,
  (true, Some (list_ascii_of_string "build")) <> (b, Some (list_ascii_of_string "review")).
Proof. intros b H. injection H. discriminate. Qed.

(** X2 (validate_pipeline_name): the verdict is one of three, and each kind
    is given exactly to the names of its pattern (segments in [a-z0-9]+,
    at most one trailing newline). *)
Theorem validate_pipeline_name_iff : forall name,
  (validate_pipeline_name name = (true, Some (list_ascii_of_string "build")) <->
   exists a b c d e,
     name = a ++ "-" ++ b ++ "-" ++ c ++ "-app-build-" ++ d ++ e /\
     seg a /\ seg b /\ seg c /\ (d = "default" \/ d = "edp") /\ (e = [] \/ e = [nl])) /\
  (validate_pipeline_name name = (true, Some (list_ascii_of_string "review")) <->
   exists a b c e,
     name = a ++ "-" ++ b ++ "-" ++ c ++ "-app-review" ++ e /\
     seg a /\ seg b /\ seg c /\ (e = [] \/ e = [nl])) /\
  (validate_pipeline_name name = (false, None) \/
   validate_pipeline_name name = (true, Some (list_ascii_of_string "build")) \/
   validate_pipeline_name name = (true, Some (list_ascii_of_string "review"))).
Proof.
  intros name. rewrite <- build_match_iff, <- review_match_iff.
  unfold validate_pipeline_name.
  destruct (re_match BUILD_REGEX name) eqn:Hb; destruct (re_match REVIEW_REGEX name) eqn:Hr.
  - exfalso. exact (build_review_exclusive name Hb Hr).
  - split; [tauto|]. split; [|tauto]. split; [|discriminate].
    intros H. exfalso. exact (some_build_review true H).
  - split; [split; [intros H; symmetry in H; exfalso; exact (some_build_review true H)
                  |discriminate]|].
    split; tauto.
  - split; [split; discriminate|]. split; [split; discriminate|]. tauto.
Qed.

(** X3 (validate_pipeline_name): an accepted name is made of lowercase
    ASCII letters, digits and hyphens, possibly followed by one newline;
    any other character (an uppercase letter, say) means rejection. *)
Theorem validate_pipeline_name_charset : forall name,
  fst (validate_pipeline_name name) = true ->
  exists p e, name = p ++ e /\ forallb cls_az09h p = true /\ (e = [] \/ e = [nl]).
Proof.
  intros name H.
  assert (W : forall q, forallb cls_az09 q = true -> forallb cls_az09h q = true).
  { intros q. apply forallb_weaken. intros c Hc. unfold cls_az09h. rewrite Hc. reflexivity. }
  unfold validate_pipeline_name in H.
  destruct (re_match BUILD_REGEX name) eqn:Hb.
  - apply build_match_iff in Hb as (a & b & c & d & e & -> & [_ Ha] & [_ Hb'] & [_ Hc] & Hd & He).
    exists (a ++ "-" ++ b ++ "-" ++ c ++ "-app-build-" ++ d), e.
    split; [rewrite <- !app_assoc; reflexivity|]. split; [|exact He].
    rewrite !forallb_app, (W a Ha), (W b Hb'), (W c Hc).
    destruct Hd as [-> | ->]; reflexivity.
  - destruct (re_match REVIEW_REGEX name) eqn:Hr; [|discriminate].
    apply review_match_iff in Hr as (a & b & c & e & -> & [_ Ha] & [_ Hb'] & [_ Hc] & He).
    exists (a ++ "-" ++ b ++ "-" ++ c ++ "-app-review"), e.
    split; [rewrite <- !app_assoc; reflexivity|]. split; [|exact He].
    rewrite !forallb_app, (W a Ha), (W b Hb'), (W c Hc). reflexivity.
Qed.

(** X4 (main, validation mode): an accepted name gives status 0 and one
    stdout line with the kind and the name; a rejected one gives status 1,
    nothing on stdout, and a first stderr line that repeats the name. *)
Theorem main_validate_output : forall prog name,
  (fst (validate_pipeline_name name) = true ->
   run_main [prog; list_ascii_of_string "--validate"; name] =
   Exit 0 [(Stdout, "✓ Valid " ++ show_opt (snd (validate_pipeline_name name))
                    ++ " pipeline name: " ++ name)]) /\
  (fst (validate_pipeline_name name) = false ->
   exit_code (run_main [prog; list_ascii_of_string "--validate"; name]) = 1%Z /\
   only_stderr (output (run_main [prog; list_ascii_of_string "--validate"; name])) /\
   hd_error (output (run_main [prog; list_ascii_of_string "--validate"; name]))
     = Some (Stderr, "✗ Invalid pipeline name: " ++ name)).
Proof.
  intros prog name. unfold run_main, main, argv_at. cbn -[validate_pipeline_name].
  destruct (validate_pipeline_name name) as [[|] k]; cbn [fst snd];
    (split; intros H; [try discriminate|try discriminate]).
  - reflexivity.
  - split; [reflexivity|]. split; [repeat constructor|reflexivity].
Qed.

Lemma main_validate_output_witness :
  fst (validate_pipeline_name "github-java-springboot-app-review") = true /\
  run_main (argv_of ["generate-pipeline.py"; "--validate"; "github-java-springboot-app-review"])
  = Exit 0 [(Stdout, "✓ Valid " ++ show_opt (snd (validate_pipeline_name
                                   "github-java-springboot-app-review"))
                     ++ " pipeline name: " ++ "github-java-springboot-app-review")] /\
  fst (validate_pipeline_name "GitHub-java-springboot-app-review") = false /\
  exit_code (run_main (argv_of ["generate-pipeline.py"; "--validate";
                                "GitHub-java-springboot-app-review"])) = 1%Z.
Proof.
  split; [vm_compute; reflexivity|]. split.
  - apply (proj1 (main_validate_output "generate-pipeline.py"
                    "github-java-springboot-app-review")).
    vm_compute. reflexivity.
  - split; [vm_compute; reflexivity|].
    apply (proj2 (main_validate_output "generate-pipeline.py"
                    "GitHub-java-springboot-app-review")).
    vm_compute. reflexivity.
Defined.

(** X5 (main, generation mode): when the three components pass, the run
    ends with status 0; stderr gets at most the unknown-provider warning, and
    stdout gets the two names, built from the arguments exactly as given
    (lowercasing never changes an accepted component), and the two
    onboarding commands naming them and the provider. *)
Theorem main_generation_output : forall prog v l f,
  str_eqb v "--validate" = false ->
  vc_ok v = true -> vc_ok l = true -> vc_ok f = true ->
  run_main [prog; v; l; f] =
  Ret tt (vcs_warnings v ++
    [(Stdout, list_ascii_of_string "Generated pipeline names:");
     (Stdout, "  Build:  " ++ v ++ "-" ++ l ++ "-" ++ f ++ "-app-build-default");
     (Stdout, "  Review: " ++ v ++ "-" ++ l ++ "-" ++ f ++ "-app-review");
     (Stdout, @nil ascii);
     (Stdout, list_ascii_of_string "Onboarding commands:");
     (Stdout, "  ./charts/pipelines-library/scripts/onboarding-component.sh "
              ++ "--type build-pipeline -n "
              ++ (v ++ "-" ++ l ++ "-" ++ f ++ "-app-build-default") ++ " --vcs " ++ v);
     (Stdout, "  ./charts/pipelines-library/scripts/onboarding-component.sh "
              ++ "--type review-pipeline -n "
              ++ (v ++ "-" ++ l ++ "-" ++ f ++ "-app-review") ++ " --vcs " ++ v)]).
Proof.
  intros prog v l f Hv E1 E2 E3.
  unfold run_main, main. cbn -[validate_vcs validate_component generate_pipeline_names str_eqb].
  cbn in Hv. rewrite Hv. unfold bind, sys_exit, ret, print.
  rewrite validate_vcs_accept by exact E1. cbn -[validate_component generate_pipeline_names].
  rewrite validate_component_accept by exact E2. cbn -[validate_component generate_pipeline_names].
  rewrite validate_component_accept by exact E3. cbn -[generate_pipeline_names].
  rewrite generate_pipeline_names_eq, (lower_accepted v E1), (lower_accepted l E2),
    (lower_accepted f E3).
  unfold vcs_warnings. destruct (in_supported v); reflexivity.
Qed.

Lemma main_generation_output_witness :
  str_eqb "gitea" "--validate" = false /\
  vc_ok "gitea" = true /\ vc_ok "python" = true /\ vc_ok "fastapi" = true /\
  exit_code (run_main (argv_of ["generate-pipeline.py"; "gitea"; "python"; "fastapi"])) = 0%Z.
Proof.
  do 4 (split; [vm_compute; reflexivity|]).
  pose proof (main_generation_output "generate-pipeline.py" "gitea" "python" "fastapi"
                ltac:(vm_compute; reflexivity) ltac:(vm_compute; reflexivity)
                ltac:(vm_compute; reflexivity) ltac:(vm_compute; reflexivity)) as H.
  apply (f_equal exit_code) in H. exact H.
Defined.

(** X6 (main, generation mode): the components are checked in the order
    VCS, language, framework, and the first rejection ends the run with
    status 1; the output is the provider warning (if any) and that one
    component's error, so later components are not checked. *)
Theorem main_generation_first_rejection : forall prog v l f,
  str_eqb v "--validate" = false ->
  (vc_ok v = false ->
   run_main [prog; v; l; f] =
   Exit 1 (vcs_warnings v ++ output (validate_component v "VCS" []))) /\
  (vc_ok v = true -> vc_ok l = false ->
   run_main [prog; v; l; f] =
   Exit 1 (vcs_warnings v ++ output (validate_component l "language" []))) /\
  (vc_ok v = true -> vc_ok l = true -> vc_ok f = false ->
   run_main [prog; v; l; f] =
   Exit 1 (vcs_warnings v ++ output (validate_component f "framework" []))).
Proof.
  intros prog v l f Hv.
  unfold run_main, main. cbn -[validate_vcs validate_component generate_pipeline_names str_eqb].
  cbn in Hv. rewrite Hv. unfold bind, sys_exit, ret, print.
  split; [|split].
  - intros E1. rewrite validate_vcs_frame, E1. reflexivity.
  - intros E1 E2. rewrite validate_vcs_accept by exact E1.
    cbn -[validate_component generate_pipeline_names].
    rewrite validate_component_frame, E2. reflexivity.
  - intros E1 E2 E3. rewrite validate_vcs_accept by exact E1.
    cbn -[validate_component generate_pipeline_names].
    rewrite validate_component_accept by exact E2.
    cbn -[validate_component generate_pipeline_names].
    rewrite validate_component_frame, E3. reflexivity.
Qed.

Lemma main_generation_first_rejection_witness :
  str_eqb "github" "--validate" = false /\ vc_ok "github" = true /\ vc_ok "Java" = false /\
  run_main (argv_of ["generate-pipeline.py"; "github"; "Java"; ""])
  = Exit 1 (vcs_warnings "github" ++ output (validate_component "Java" "language" [])).
Proof.
  do 3 (split; [vm_compute; reflexivity|]).
  cbn [argv_of map].
  apply (proj1 (proj2 (main_generation_first_rejection "generate-pipeline.py"
                         "github" "Java" "" ltac:(vm_compute; reflexivity))));
    vm_compute; reflexivity.
Defined.

(** The text printed to stdout, in order. *)
Definition stdout_lines (out : list line) : list str :=
  map snd (filter (fun l => match fst l with Stdout => true | Stderr => false end) out).

Lemma stdout_lines_only_stderr : forall out, only_stderr out -> stdout_lines out = [].
Proof.
  induction 1 as [|l out Hl _ IH]; auto.
  destruct l as [[|] t]; simpl in *; [discriminate|exact IH].
Qed.

Ltac pick_disj := repeat first [left; reflexivity | right]; reflexivity.

Ltac main_unfold :=
  unfold run_main, main, argv_at;
  cbn -[validate_pipeline_name validate_vcs validate_component generate_pipeline_names
        str_eqb module_doc usage_validate usage_generate].

Lemma main_status : forall argv,
  exit_code (run_main argv) = 0%Z \/
  (exit_code (run_main argv) = 1%Z /\
   (stdout_lines (output (run_main argv)) = [] \/
    stdout_lines (output (run_main argv)) = [module_doc] \/
    stdout_lines (output (run_main argv)) = [usage_validate] \/
    stdout_lines (output (run_main argv)) = [usage_generate])).
Proof.
  intros [|p [|a [|b [|c [|d rest]]]]].
  - right. split; [reflexivity|]. pick_disj.
  - right. split; [reflexivity|]. pick_disj.
  - destruct (str_eqb a (list_ascii_of_string "--validate")) eqn:Ha;
      main_unfold; cbn in Ha; rewrite Ha; cbn;
      (right; split; [reflexivity|]; pick_disj).
  - destruct (str_eqb a (list_ascii_of_string "--validate")) eqn:Ha.
    + main_unfold. cbn in Ha. rewrite Ha. cbn -[validate_pipeline_name].
      destruct (validate_pipeline_name b) as [[|] k]; [left; reflexivity|].
      right. split; [reflexivity|]. pick_disj.
    + main_unfold. cbn in Ha. rewrite Ha. cbn.
      right. split; [reflexivity|]. pick_disj.
  - destruct (str_eqb a (list_ascii_of_string "--validate")) eqn:Ha.
    + main_unfold. cbn in Ha. rewrite Ha. cbn.
      right. split; [reflexivity|]. pick_disj.
    + destruct (vc_ok a) eqn:E1; [destruct (vc_ok b) eqn:E2;
                                  [destruct (vc_ok c) eqn:E3|]|].
      * left. apply (main_generation_accepts p a b c Ha E1 E2 E3).
      * right. destruct (main_generation_rejects p a b c Ha) as [H1 H2]; [tauto|].
        split; [exact H1|]. left. apply stdout_lines_only_stderr, H2.
      * right. destruct (main_generation_rejects p a b c Ha) as [H1 H2]; [tauto|].
        split; [exact H1|]. left. apply stdout_lines_only_stderr, H2.
      * right. destruct (main_generation_rejects p a b c Ha) as [H1 H2]; [tauto|].
        split; [exact H1|]. left. apply stdout_lines_only_stderr, H2.
  - destruct (str_eqb a (list_ascii_of_string "--validate")) eqn:Ha;
      main_unfold; cbn in Ha; rewrite Ha; cbn;
      (right; split; [reflexivity|]; pick_disj).
Qed.

(** X7 (main): whatever the arguments, the script ends with status 0 or 1. *)
Theorem main_exit_status_0_or_1 : forall argv,
  exit_code (run_main argv) = 0%Z \/ exit_code (run_main argv) = 1%Z.
Proof. intros argv. destruct (main_status argv) as [H | [H _]]; auto. Qed.

(** X8 (main): a run that ends with status 1 prints nothing on stdout but,
    at most, one usage text (the module docstring or one of the two usage
    lines); in particular it never prints a pipeline name there. *)
Theorem main_failure_stdout : forall argv,
  exit_code (run_main argv) = 1%Z ->
  stdout_lines (output (run_main argv)) = [] \/
  stdout_lines (output (run_main argv)) = [module_doc] \/
  stdout_lines (output (run_main argv)) = [usage_validate] \/
  stdout_lines (output (run_main argv)) = [usage_generate].
Proof.
  intros argv H1. destruct (main_status argv) as [H0 | [_ H]]; [|exact H].
  rewrite H0 in H1. discriminate.
Qed.

Lemma main_failure_stdout_witness :
  exit_code (run_main (argv_of ["generate-pipeline.py"; "github"; "Java"; "x"])) = 1%Z /\
  stdout_lines (output (run_main (argv_of ["generate-pipeline.py"; "github"; "Java"; "x"])))
    = [].
Proof.
  assert (H1 : exit_code (run_main (argv_of ["generate-pipeline.py"; "github"; "Java"; "x"]))
               = 1%Z) by (vm_compute; reflexivity).
  split; [exact H1|].
  destruct (main_failure_stdout _ H1) as [H | [H | [H | H]]];
    [exact H | vm_compute in H; discriminate H ..].
Defined.

Lemma validate_pipeline_name_charset_witness :
  fst (validate_pipeline_name "gitlab-python-fastapi-app-build-edp") = true /\
  exists p e, list_ascii_of_string "gitlab-python-fastapi-app-build-edp" = p ++ e /\
    forallb cls_az09h p = true /\ (e = [] \/ e = [nl]).
Proof.
  assert (H : fst (validate_pipeline_name "gitlab-python-fastapi-app-build-edp") = true)
    by (vm_compute; reflexivity).
  split; [exact H|]. exact (validate_pipeline_name_charset _ H).
Defined.
